(** * Riptide flood model: [backend/main.py]

    A shallow embedding of the elevation/water grid [hgtMap], the
    coordinate mapper, the diffusion [weight] and the simulation step
    [tick], followed by the properties of the design specification that
    were checked against it.

    Modelling conventions.
    - Python [int] values are [Z]; Python [float] values are idealised as
      real numbers [R] (no rounding, no overflow), so [2.71828 ** y] is
      [Rpower 2.71828 y].  [/] is Python 3's true division.
    - A Python list is a [list]; subscripting follows Python: an index [i]
      with [-len <= i < 0] addresses element [len + i], any other index
      outside [0 .. len-1] raises [IndexError].
    - Raising code returns in the [result] monad; [try: ... except: pass]
      is [try_pass].
    - The delta grid of [tick] is built by [[[0] * w] * h]: one row object
      referenced [h] times.  It is modelled as a store of row objects plus
      the outer list of references, so that aliasing is explicit. *)

From Stdlib Require Import String ZArith Bool List Lia.
From Stdlib Require Import Reals Lra.
Import ListNotations.

Open Scope Z_scope.

(** ** Exceptions *)

Inductive exn : Type :=
| IndexError
| Exception (msg : string).

Inductive result (A : Type) : Type :=
| Ok (a : A)
| Raise (e : exn).

Arguments Ok {A} a.
Arguments Raise {A} e.

Definition bind {A B} (m : result A) (k : A -> result B) : result B :=
  match m with
  | Ok a => k a
  | Raise e => Raise e
  end.

Notation "x <- m ;; k" := (bind m (fun x => k))
  (at level 61, m at next level, right associativity).

(** [try: m  except: pass] around a statement that updates state [s]. *)
Definition try_pass {S} (s : S) (m : result S) : result S :=
  match m with
  | Ok s' => Ok s'
  | Raise _ => Ok s
  end.

(** [for a in l: s = body(s, a)], stopping at the first exception. *)
Fixpoint foldM {A S} (body : S -> A -> result S) (l : list A) (s : S)
  : result S :=
  match l with
  | [] => Ok s
  | a :: l' => s' <- body s a ;; foldM body l' s'
  end.

(** ** Python sequences *)

(** [range(a, b)] *)
Definition py_range (a b : Z) : list Z :=
  map (fun k => a + Z.of_nat k) (seq 0 (Z.to_nat (b - a))).

(** Position addressed by subscript [i] in a sequence of length [len]. *)
Definition py_index (len : nat) (i : Z) : result nat :=
  if (0 <=? i) && (i <? Z.of_nat len) then Ok (Z.to_nat i)
  else if (- Z.of_nat len <=? i) && (i <? 0) then Ok (Z.to_nat (Z.of_nat len + i))
  else Raise IndexError.

Fixpoint list_set {A} (l : list A) (n : nat) (v : A) : list A :=
  match l, n with
  | [], _ => []
  | _ :: l', O => v :: l'
  | a :: l', S n' => a :: list_set l' n' v
  end.

(** [l[i]] *)
Definition py_get {A} (l : list A) (i : Z) : result A :=
  n <- py_index (length l) i ;;
  match nth_error l n with
  | Some a => Ok a
  | None => Raise IndexError
  end.

(** [l[i] = v] *)
Definition py_set {A} (l : list A) (i : Z) (v : A) : result (list A) :=
  n <- py_index (length l) i ;;
  Ok (list_set l n v).

(** [int(r)] on a float: truncation toward zero. *)
Definition py_int (r : R) : Z :=
  if Rle_dec 0 r then Int_part r else - Int_part (- r).

(** [a < b] on floats, as a boolean. *)
Definition Rltb (a b : R) : bool :=
  if Rlt_dec a b then true else false.

(** ** The grid: class [hgtMap] *)

(** One entry [[height, water]] of [self.data]. *)
Record cell : Type := Cell { height : Z; water : R }.

Record hgtMap : Type := HgtMap {
  data : list (list cell);
  maxX : Z;
  maxY : Z;
  minFloodHeight : R
}.

(** [hgtMap.__init__] *)
Definition init (hgtStartData : list (list Z)) : result hgtMap :=
  let data := map (fun row => map (fun h => Cell h 0%R) row) hgtStartData in
  row0 <- py_get hgtStartData 0 ;;
  Ok (HgtMap data
        (Z.of_nat (length row0) - 1)
        (Z.of_nat (length hgtStartData) - 1)
        0%R).

(** The bounds test shared by [getHeight], [getWater] and [setWater]. *)
Definition outside (self : hgtMap) (x y : Z) : bool :=
  (x >? maxX self) || (y >? maxY self) || (x <? 0) || (y <? 0).

Definition pointToLatLong (self : hgtMap) (x y : Z) : R * R :=
  let deltaX := (IZR x * 1 / 1201)%R in
  let deltaY := (IZR y * 1 / 1201)%R in
  let y := if y >? 1 then 1 else y in
  let x := if x >? 1 then 1 else x in
  ((41 - deltaY)%R, (- (73 + deltaX))%R).

Definition latLongToPointApprox (self : hgtMap) (lat long : R) : Z * Z :=
  let y := py_int (-1201 * (lat - 41))%R in
  let x := py_int (-1201 * (long + 73))%R in
  let y := if y >? 1200 then 1200 else y in
  let x := if x >? 1200 then 1200 else x in
  let y := if y <? 0 then 0 else y in
  let x := if x <? 0 then 0 else x in
  (x, y).

Definition getHeight (self : hgtMap) (x y : Z) : result Z :=
  if outside self x y then Ok 10000000
  else
    row <- py_get (data self) y ;;
    c <- py_get row x ;;
    Ok (height c).

Definition getWater (self : hgtMap) (x y : Z) : result R :=
  if outside self x y
  then Raise (Exception "accessed an invalid position in method getWater")
  else
    row <- py_get (data self) y ;;
    c <- py_get row x ;;
    Ok (water c).

(** The guard of [setWater] ends in [pass]: both branches continue with
    the assignment [self.data[y][x][1] = waterLevel]. *)
Definition setWater (self : hgtMap) (x y : Z) (waterLevel : R)
  : result hgtMap :=
  let write :=
    row <- py_get (data self) y ;;
    c <- py_get row x ;;
    row' <- py_set row x (Cell (height c) waterLevel) ;;
    data' <- py_set (data self) y row' ;;
    Ok (HgtMap data' (maxX self) (maxY self) (minFloodHeight self)) in
  if outside self x y then write else write.

Definition getAllData (self : hgtMap) : list (list cell) := data self.

(** ** The diffusion weight *)

Definition weight (delta : R) : R :=
  (1 / (1 + Rpower 2.71828 (-1 * delta / 3)))%R.

(** ** The simulation step [tick] *)

(** The value of [[[0] * w] * h]: a single row object (address [0] of
    [rowObjects]) and an outer list holding [h] references to it. *)
Record deltaGrid : Type := DeltaGrid {
  rowObjects : list (list R);
  rowRefs : list nat
}.

Definition new_deltas (w h : Z) : deltaGrid :=
  DeltaGrid [repeat 0%R (Z.to_nat w)] (repeat 0%nat (Z.to_nat h)).

(** [deltas[j][i]] *)
Definition deltas_get (deltas : deltaGrid) (j i : Z) : result R :=
  r <- py_get (rowRefs deltas) j ;;
  py_get (nth r (rowObjects deltas) []) i.

(** [deltas[j][i] = v]: the row object behind reference [deltas[j]] is
    updated in place. *)
Definition deltas_set (deltas : deltaGrid) (j i : Z) (v : R)
  : result deltaGrid :=
  r <- py_get (rowRefs deltas) j ;;
  row' <- py_set (nth r (rowObjects deltas) []) i v ;;
  Ok (DeltaGrid (list_set (rowObjects deltas) r row') (rowRefs deltas)).

(** Lines 112-115: the sum of the weights over the 3x3 block around
    [(x, y)]. *)
Definition weightSumAt (floodMap : hgtMap) (x y midHeight : Z) : result R :=
  foldM (fun weightSum i =>
    foldM (fun weightSum j =>
      h <- getHeight floodMap i j ;;
      Ok (weightSum + weight (IZR (h - midHeight)))%R)
      (py_range (y - 1) (y + 2)) weightSum)
    (py_range (x - 1) (x + 2)) 0%R.

(** The right-hand sides of lines 120 and 123. *)
Definition centreDelta (waterToSpread weightSum : R) : R :=
  (waterToSpread * weight 0 / weightSum - waterToSpread)%R.

Definition neighbourDelta (waterToSpread weightSum : R) : R :=
  (waterToSpread * weight 0 / weightSum)%R.

(** Lines 119-125: the statement executed for one [(i, j)]. *)
Definition writeDelta (x y : Z) (waterToSpread weightSum : R)
    (deltas : deltaGrid) (i j : Z) : result deltaGrid :=
  if (x =? i) && (y =? j)
  then deltas_set deltas j i (centreDelta waterToSpread weightSum)
  else try_pass deltas
         (deltas_set deltas j i (neighbourDelta waterToSpread weightSum)).

(** Lines 117-125. *)
Definition spread (x y : Z) (waterToSpread weightSum : R)
    (deltas : deltaGrid) : result deltaGrid :=
  foldM (fun deltas i =>
    foldM (fun deltas j => writeDelta x y waterToSpread weightSum deltas i j)
      (py_range (y - 1) (y + 2)) deltas)
    (py_range (x - 1) (x + 2)) deltas.

(** Lines 110-125: the [else] branch. *)
Definition propagate (floodMap : hgtMap) (x y : Z) (deltas : deltaGrid)
  : result deltaGrid :=
  waterToSpread <- getWater floodMap x y ;;
  midHeight <- getHeight floodMap x y ;;
  weightSum <- weightSumAt floodMap x y midHeight ;;
  spread x y waterToSpread weightSum deltas.

(** Lines 106-125: the body of the first pair of loops. *)
Definition tickCell (floodMap : hgtMap) (x y : Z) (deltas : deltaGrid)
  : result deltaGrid :=
  w <- getWater floodMap x y ;;
  if Rltb w (minFloodHeight floodMap) then Ok deltas
  else propagate floodMap x y deltas.

(** Lines 104-125. *)
Definition computeDeltas (floodMap : hgtMap) (deltas : deltaGrid)
  : result deltaGrid :=
  foldM (fun deltas x =>
    foldM (fun deltas y => tickCell floodMap x y deltas)
      (py_range 0 (maxY floodMap + 1)) deltas)
    (py_range 0 (maxX floodMap + 1)) deltas.

(** Line 128. *)
Definition applyDelta (deltas : deltaGrid) (floodMap : hgtMap) (x y : Z)
  : result hgtMap :=
  w <- getWater floodMap x y ;;
  d <- deltas_get deltas y x ;;
  setWater floodMap x y (w + d)%R.

(** Lines 126-128. *)
Definition applyDeltas (deltas : deltaGrid) (floodMap : hgtMap)
  : result hgtMap :=
  foldM (fun floodMap x =>
    foldM (fun floodMap y => applyDelta deltas floodMap x y)
      (py_range 0 (maxY floodMap + 1)) floodMap)
    (py_range 0 (maxX floodMap + 1)) floodMap.

Definition tick (floodMap : hgtMap) : result hgtMap :=
  let deltas := new_deltas (maxX floodMap + 1) (maxY floodMap + 1) in
  deltas <- computeDeltas floodMap deltas ;;
  applyDeltas deltas floodMap.

(** Total water held by the grid. *)
Definition totalWater (floodMap : hgtMap) : R :=
  fold_right (fun row acc =>
    fold_right (fun c acc => (water c + acc)%R) acc row) 0%R (data floodMap).

(** ** Well-formed states *)

(** What [init] builds from a non-empty rectangular array: [maxY + 1]
    rows of [maxX + 1] cells. *)
Definition rectangular (floodMap : hgtMap) : Prop :=
  0 <= maxX floodMap /\ 0 <= maxY floodMap /\
  length (data floodMap) = Z.to_nat (maxY floodMap + 1) /\
  Forall (fun row => length row = Z.to_nat (maxX floodMap + 1))
         (data floodMap).

(** The shape of the delta grid of a tick on [floodMap]: [maxY + 1]
    references, each to an existing row object of [maxX + 1] entries. *)
Definition shaped (floodMap : hgtMap) (deltas : deltaGrid) : Prop :=
  length (rowRefs deltas) = Z.to_nat (maxY floodMap + 1) /\
  Forall (fun r => (r < length (rowObjects deltas))%nat) (rowRefs deltas) /\
  Forall (fun row => length row = Z.to_nat (maxX floodMap + 1))
         (rowObjects deltas).


(** The attribute assignment [floodMap.minFloodHeight = m] of [main]. *)
Definition set_minFloodHeight (floodMap : hgtMap) (m : R) : hgtMap :=
  HgtMap (data floodMap) (maxX floodMap) (maxY floodMap) m.

(** ** Sample grids *)

(** 3x3, flat, 100 units of water on the centre cell, threshold 0. *)
Definition flat3 : hgtMap :=
  HgtMap [[Cell 0 0; Cell 0 0; Cell 0 0];
          [Cell 0 0; Cell 0 100; Cell 0 0];
          [Cell 0 0; Cell 0 0; Cell 0 0]] 2 2 0.

(** The same grid with threshold 1: only the centre cell is processed. *)
Definition pool3 : hgtMap :=
  HgtMap (data flat3) 2 2 1.

(** 3x3, cell [(0, 0)] three units higher than the rest, threshold 1. *)
Definition slope3 : hgtMap :=
  HgtMap [[Cell 3 0; Cell 0 0; Cell 0 0];
          [Cell 0 0; Cell 0 100; Cell 0 0];
          [Cell 0 0; Cell 0 0; Cell 0 0]] 2 2 1.

(** One column, two rows, water on the lower cell [(0, 1)]. *)
Definition column2 : hgtMap :=
  HgtMap [[Cell 0 0];
          [Cell 0 100]] 0 1 0.

(** 2x2, flat and dry. *)
Definition dry2 : hgtMap :=
  HgtMap [[Cell 0 0; Cell 0 0];
          [Cell 0 0; Cell 0 0]] 1 1 0.

(** A single cell. *)
Definition single : hgtMap :=
  HgtMap [[Cell 0 100]] 0 0 0.

(** ** Evaluation tactics *)

(** Normalise the control flow and the integer arithmetic, leaving the
    real-number expressions and the per-cell steps untouched. *)
Ltac ev :=
  cbv -[Rplus Rminus Rmult Rdiv Rinv Ropp IZR weight Rltb Rlt Rle
        propagate tickCell applyDeltas].

(** Settle a comparison of two known amounts of water. *)
Ltac decide_Rltb :=
  match goal with
  | |- context [Rltb ?a ?b] =>
      first
        [ replace (Rltb a b) with true
            by (unfold Rltb; destruct (Rlt_dec a b);
                [reflexivity | exfalso; lra])
        | replace (Rltb a b) with false
            by (unfold Rltb; destruct (Rlt_dec a b);
                [exfalso; lra | reflexivity]) ]
  end.

(** Run the first pair of loops cell by cell. *)
Ltac run_cells :=
  repeat (ev; first [ decide_Rltb
                    | unfold propagate at 1
                    | unfold tickCell at 1 ]);
  ev.

Ltac run_tick :=
  unfold tick, computeDeltas; run_cells; unfold applyDeltas; ev.

(** Close [0 * a / b = 0]-like goals. *)
Ltac Rzero := unfold Rdiv; rewrite ?Rmult_0_l; lra.

(** ** The rest of [backend/main.py] *)

(** The entry [data[y][x]] for an in-bounds [(x, y)]. *)
Definition cellAt (floodMap : hgtMap) (x y : Z) : cell :=
  nth (Z.to_nat x) (nth (Z.to_nat y) (data floodMap) []) (Cell 0 0%R).

(** [math.radians] *)
Definition radians (deg : R) : R := (deg * PI / 180)%R.

(** [math.sqrt]: a negative argument raises [ValueError], here [None]. *)
Definition py_sqrt (r : R) : option R :=
  if Rle_dec 0 r then Some (sqrt r) else None.

(** [math.atan2(y, x)] *)
Definition atan2 (y x : R) : R :=
  if Rlt_dec 0 x then atan (y / x)
  else if Rlt_dec x 0 then
    if Rle_dec 0 y then (atan (y / x) + PI)%R else (atan (y / x) - PI)%R
  else if Rlt_dec 0 y then (PI / 2)%R
  else if Rlt_dec y 0 then (- PI / 2)%R
  else 0%R.

(** [latLongDist]; [None] stands for the [ValueError] of [sqrt]. *)
Definition latLongDist (lat1 long1 lat2 long2 : R) : option R :=
  let R := 6373%R in
  let lat1i := radians lat1 in
  let lon1i := radians long1 in
  let lat2i := radians lat2 in
  let lon2i := radians long2 in
  let dlon := (lon2i - lon1i)%R in
  let dlat := (lat2i - lat1i)%R in
  let a := (sin (dlat / 2) ^ 2
            + cos lat1i * cos lat2i * sin (dlon / 2) ^ 2)%R in
  match py_sqrt a with
  | None => None
  | Some sa =>
      match py_sqrt (1 - a) with
      | None => None
      | Some sb => Some (R * (2 * atan2 sa sb))%R
      end
  end.

(** Lines 136-137 of [main]: [dim = int(math.sqrt(siz / 2))] and the
    assertion [dim * dim * 2 == siz]; [None] stands for the exception
    raised ([ValueError] by [sqrt], [AssertionError] by the assertion). *)
Definition checkedDim (siz : Z) : option Z :=
  match py_sqrt (IZR siz / 2) with
  | None => None
  | Some r =>
      let dim := py_int r in
      if dim * dim * 2 =? siz then Some dim else None
  end.


(** Every reference of the delta grid points to the one row [row]. *)
Definition aliased (floodMap : hgtMap) (row : list R) (deltas : deltaGrid)
  : Prop :=
  deltas = DeltaGrid [row] (repeat 0%nat (Z.to_nat (maxY floodMap + 1))) /\
  length row = Z.to_nat (maxX floodMap + 1).

(** [floodMap] is [floodMap0] with the entry of [row] for its column
    added to the water of each cell marked [done]: the state of the second
    pair of loops of [tick]. *)
Definition appliedTo (floodMap0 : hgtMap) (row : list R)
    (done : Z -> Z -> Prop) (floodMap : hgtMap) : Prop :=
  rectangular floodMap /\
  maxX floodMap = maxX floodMap0 /\ maxY floodMap = maxY floodMap0 /\
  minFloodHeight floodMap = minFloodHeight floodMap0 /\
  forall x y, outside floodMap0 x y = false ->
    height (cellAt floodMap x y) = height (cellAt floodMap0 x y) /\
    ((done x y /\
      water (cellAt floodMap x y) =
        (water (cellAt floodMap0 x y) + nth (Z.to_nat x) row 0)%R) \/
     (~ done x y /\
      water (cellAt floodMap x y) = water (cellAt floodMap0 x y))).


(** * Lemmas *)

Section RealLemmas.
Local Open Scope R_scope.

Lemma Rltb_true a b : a < b -> Rltb a b = true.
Proof.
  intros H. unfold Rltb. destruct (Rlt_dec a b); [reflexivity | contradiction].
Qed.

Lemma Rltb_false a b : b <= a -> Rltb a b = false.
Proof.
  intros H. unfold Rltb. destruct (Rlt_dec a b); [lra | reflexivity].
Qed.

Lemma base_gt_1 : 1 < 2.71828.
Proof. lra. Qed.

Lemma ln_base_pos : 0 < ln 2.71828.
Proof. rewrite <- ln_1. apply ln_increasing; lra. Qed.

Lemma Rpower_pos x y : 0 < Rpower x y.
Proof. unfold Rpower. apply exp_pos. Qed.

Lemma weight_0 : weight 0 = 1 / 2.
Proof.
  unfold weight.
  replace (-1 * 0 / 3) with 0 by lra.
  rewrite Rpower_O by lra. lra.
Qed.

Lemma weight_pos d : 0 < weight d.
Proof.
  unfold weight. pose proof (Rpower_pos 2.71828 (-1 * d / 3)).
  apply Rdiv_lt_0_compat; lra.
Qed.


Lemma weight_increasing a b : a < b -> weight a < weight b.
Proof.
  intros Hab. unfold weight.
  pose proof (Rpower_pos 2.71828 (-1 * a / 3)) as Ha.
  pose proof (Rpower_pos 2.71828 (-1 * b / 3)) as Hb.
  assert (Hlt : Rpower 2.71828 (-1 * b / 3) < Rpower 2.71828 (-1 * a / 3)).
  { apply Rpower_lt; lra. }
  unfold Rdiv. rewrite !Rmult_1_l.
  apply Rinv_lt_contravar; [nra | lra].
Qed.


Lemma py_int_nonneg r : 0 <= r -> IZR (py_int r) <= r < IZR (py_int r) + 1.
Proof.
  intros Hr. unfold py_int.
  destruct (Rle_dec 0 r) as [_ | n]; [| contradiction].
  destruct (base_Int_part r). lra.
Qed.

Lemma py_int_range r n :
  (0 < n)%Z -> 0 <= r < IZR n -> (0 <= py_int r <= n - 1)%Z.
Proof.
  intros Hn [H0 H1]. destruct (py_int_nonneg r H0) as [Hl Hu].
  split.
  - apply Z.lt_succ_r. apply lt_IZR. rewrite succ_IZR. lra.
  - apply Z.lt_succ_r. apply lt_IZR.
    replace (Z.succ (n - 1)) with n by lia. lra.
Qed.

End RealLemmas.

(** ** Coordinate mapper *)

Lemma latLongToPointApprox_inside self lat long :
  (40 < lat <= 41)%R -> (-74 < long <= -73)%R ->
  latLongToPointApprox self lat long =
    (py_int (-1201 * (long + 73)), py_int (-1201 * (lat - 41))).
Proof.
  intros Hlat Hlong. unfold latLongToPointApprox.
  assert (Hy : 0 <= py_int (-1201 * (lat - 41)) <= 1201 - 1)
    by (apply py_int_range; [lia | lra]).
  assert (Hx : 0 <= py_int (-1201 * (long + 73)) <= 1201 - 1)
    by (apply py_int_range; [lia | lra]).
  cbv zeta.
  replace (py_int (-1201 * (lat - 41)) >? 1200) with false
    by (symmetry; rewrite Z.gtb_ltb; apply Z.ltb_ge; lia).
  replace (py_int (-1201 * (long + 73)) >? 1200) with false
    by (symmetry; rewrite Z.gtb_ltb; apply Z.ltb_ge; lia).
  replace (py_int (-1201 * (lat - 41)) <? 0) with false
    by (symmetry; apply Z.ltb_ge; lia).
  replace (py_int (-1201 * (long + 73)) <? 0) with false
    by (symmetry; apply Z.ltb_ge; lia).
  reflexivity.
Qed.


(** ** Python subscripting *)

Lemma bind_Ok {A B} (m : result A) (k : A -> result B) b :
  bind m k = Ok b -> exists a, m = Ok a /\ k a = Ok b.
Proof. destruct m as [a | e]; simpl; [eauto | discriminate]. Qed.

Lemma py_index_inrange len i :
  0 <= i < Z.of_nat len -> py_index len i = Ok (Z.to_nat i).
Proof.
  intros [H0 H1]. unfold py_index.
  destruct (Z.leb_spec 0 i); [| lia].
  destruct (Z.ltb_spec i (Z.of_nat len)); [reflexivity | lia].
Qed.

Lemma py_index_above len i :
  Z.of_nat len <= i -> py_index len i = Raise IndexError.
Proof.
  intros H. unfold py_index.
  destruct (Z.ltb_spec i (Z.of_nat len)); [lia |].
  destruct (Z.ltb_spec i 0); [lia |].
  rewrite !andb_false_r. reflexivity.
Qed.

Lemma py_index_lt len i n : py_index len i = Ok n -> (n < len)%nat.
Proof.
  unfold py_index.
  destruct (Z.leb_spec 0 i); destruct (Z.ltb_spec i (Z.of_nat len)); simpl;
    try (intros [= <-]; lia);
    destruct (Z.leb_spec (- Z.of_nat len) i); destruct (Z.ltb_spec i 0); simpl;
    try discriminate; intros [= <-]; lia.
Qed.

Lemma py_get_inrange {A} (l : list A) i :
  0 <= i < Z.of_nat (length l) ->
  exists a, py_get l i = Ok a /\ nth_error l (Z.to_nat i) = Some a.
Proof.
  intros H. unfold py_get. rewrite py_index_inrange by assumption. simpl.
  destruct (nth_error l (Z.to_nat i)) as [a |] eqn:E; [eauto |].
  apply nth_error_None in E. lia.
Qed.


Lemma py_get_In {A} (l : list A) i a : py_get l i = Ok a -> In a l.
Proof.
  unfold py_get. intros H. apply bind_Ok in H as (n & _ & H).
  destruct (nth_error l n) eqn:E; [| discriminate].
  injection H as <-. eapply nth_error_In; eassumption.
Qed.

Lemma length_list_set {A} (l : list A) n v : length (list_set l n v) = length l.
Proof.
  revert n. induction l as [| a l IH]; intros [| n]; simpl; auto.
Qed.

Lemma nth_error_list_set {A} (l : list A) n v :
  (n < length l)%nat -> nth_error (list_set l n v) n = Some v.
Proof.
  revert n. induction l as [| a l IH]; intros [| n]; simpl; intros H;
    try lia; [reflexivity | apply IH; lia].
Qed.

Lemma nth_list_set {A} (l : list A) n v d :
  (n < length l)%nat -> nth n (list_set l n v) d = v.
Proof.
  revert n. induction l as [| a l IH]; intros [| n]; simpl; intros H;
    try lia; [reflexivity | apply IH; lia].
Qed.

Lemma Forall_list_set {A} (P : A -> Prop) l n v :
  Forall P l -> P v -> Forall P (list_set l n v).
Proof.
  intros Hl Hv. revert n.
  induction Hl as [| a l Ha Hl IH]; intros [| n]; simpl; constructor; auto.
Qed.

Lemma py_set_inrange {A} (l : list A) i v :
  0 <= i < Z.of_nat (length l) ->
  py_set l i v = Ok (list_set l (Z.to_nat i) v).
Proof. intros H. unfold py_set. rewrite py_index_inrange by assumption. reflexivity. Qed.



Lemma py_get_set {A} (l l' : list A) i v :
  py_set l i v = Ok l' -> py_get l' i = Ok v.
Proof.
  unfold py_set, py_get. intros H. apply bind_Ok in H as (n & Hn & [= <-]).
  rewrite length_list_set, Hn. simpl.
  rewrite nth_error_list_set; [reflexivity | eapply py_index_lt; eassumption].
Qed.


Lemma py_range_In a b k : In k (py_range a b) <-> a <= k < b.
Proof.
  unfold py_range. rewrite in_map_iff. split.
  - intros (n & <- & Hn). apply in_seq in Hn. lia.
  - intros H. exists (Z.to_nat (k - a)). split; [lia |].
    apply in_seq. lia.
Qed.

Lemma py_range_block c : py_range (c - 1) (c + 2) = [c - 1; c; c + 1].
Proof.
  unfold py_range. replace (c + 2 - (c - 1)) with 3 by lia.
  change (Z.to_nat 3) with 3%nat. cbn [seq map].
  replace (c - 1 + Z.of_nat 0) with (c - 1) by lia.
  replace (c - 1 + Z.of_nat 1) with c by lia.
  replace (c - 1 + Z.of_nat 2) with (c + 1) by lia.
  reflexivity.
Qed.

(** ** Grid accessors *)

Lemma outside_false self x y :
  outside self x y = false <-> 0 <= x <= maxX self /\ 0 <= y <= maxY self.
Proof.
  unfold outside. rewrite !orb_false_iff, !Z.gtb_ltb, !Z.ltb_ge. lia.
Qed.

Lemma outside_true self x y :
  outside self x y = true <->
  x > maxX self \/ y > maxY self \/ x < 0 \/ y < 0.
Proof.
  unfold outside. rewrite !orb_true_iff, !Z.gtb_ltb, !Z.ltb_lt. lia.
Qed.

Lemma cell_inside self x y :
  rectangular self -> outside self x y = false ->
  exists row c, py_get (data self) y = Ok row /\ py_get row x = Ok c.
Proof.
  intros (HX & HY & Hrows & Hcols) Hin. apply outside_false in Hin.
  destruct (py_get_inrange (data self) y) as (row & Hrow & _); [lia |].
  pose proof (py_get_In _ _ _ Hrow) as Hmem.
  rewrite Forall_forall in Hcols. specialize (Hcols row Hmem).
  destruct (py_get_inrange row x) as (c & Hc & _); [lia |].
  eauto.
Qed.

Lemma getHeight_outside self x y :
  outside self x y = true -> getHeight self x y = Ok 10000000.
Proof. intros H. unfold getHeight. rewrite H. reflexivity. Qed.


Lemma getWater_outside self x y :
  outside self x y = true ->
  getWater self x y =
    Raise (Exception "accessed an invalid position in method getWater").
Proof. intros H. unfold getWater. rewrite H. reflexivity. Qed.

Lemma getWater_total self x y :
  rectangular self -> outside self x y = false ->
  exists w, getWater self x y = Ok w.
Proof.
  intros Hrect E. unfold getWater. rewrite E.
  destruct (cell_inside self x y Hrect E) as (row & c & -> & Hc). simpl.
  rewrite Hc. simpl. eauto.
Qed.

Lemma setWater_total self x y w :
  rectangular self -> outside self x y = false ->
  exists self', setWater self x y w = Ok self' /\ rectangular self' /\
    maxX self' = maxX self /\ maxY self' = maxY self.
Proof.
  intros Hrect E.
  destruct (cell_inside self x y Hrect E) as (row & c & Hrow & Hc).
  pose proof (py_get_In _ _ _ Hrow) as Hmem.
  destruct Hrect as (HX & HY & Hrows & Hcols).
  pose proof E as Hin. apply outside_false in Hin.
  rewrite Forall_forall in Hcols. pose proof (Hcols row Hmem) as Hlen.
  unfold setWater. rewrite E, Hrow. simpl. rewrite Hc. simpl.
  rewrite py_set_inrange by lia. simpl.
  rewrite py_set_inrange by lia. simpl.
  eexists. split; [reflexivity |].
  repeat split; simpl; try assumption.
  - rewrite length_list_set. assumption.
  - apply Forall_list_set.
    + apply Forall_forall. assumption.
    + rewrite length_list_set. assumption.
Qed.

(** ** The weight sum *)


Lemma weightSumAt_pos floodMap x y midHeight ws :
  weightSumAt floodMap x y midHeight = Ok ws -> (0 < ws)%R.
Proof.
  unfold weightSumAt. rewrite !py_range_block. cbn [foldM bind].
  repeat (destruct (getHeight floodMap _ _) as [? | ?]; cbn [bind];
          [| discriminate]).
  intros [= <-].
  repeat match goal with
         | |- context [weight ?d] =>
             let H := fresh "Hw" in
             pose proof (weight_pos d) as H; generalize dependent (weight d);
             intros
         end.
  lra.
Qed.

(** ** The delta grid *)




Lemma py_get_raises {A} (l : list A) i e : py_get l i = Raise e -> e = IndexError.
Proof.
  unfold py_get, py_index.
  repeat match goal with
         | |- context [if ?c then _ else _] => destruct c; simpl
         | |- context [nth_error ?l ?n] => destruct (nth_error l n); simpl
         end; congruence.
Qed.










(** Every row of a fresh delta grid is the same object: a value stored
    through row [j1] is read back through any row [j2]. *)
Lemma new_deltas_rows_alias w h j1 j2 i v deltas' :
  deltas_set (new_deltas w h) j1 i v = Ok deltas' ->
  0 <= j2 < h ->
  deltas_get deltas' j2 i = Ok v.
Proof.
  intros Hset Hj2. unfold deltas_set in Hset.
  apply bind_Ok in Hset as (r & Hr & Hset).
  apply bind_Ok in Hset as (row' & Hrow' & [= <-]).
  apply py_get_In in Hr. simpl in Hr. apply repeat_spec in Hr. subst r.
  simpl in Hrow'. unfold deltas_get. simpl.
  destruct (py_get_inrange (repeat 0%nat (Z.to_nat h)) j2) as (r2 & Hr2 & _).
  { rewrite repeat_length. lia. }
  rewrite Hr2. simpl.
  apply py_get_In, repeat_spec in Hr2. subst r2. simpl.
  eapply py_get_set. eassumption.
Qed.


(** ** The sample grids *)



(** The sample grids are states the program reaches: [__init__] on an
    elevation array, one [setWater] to seed the flood, and for [pool3] and
    [slope3] the threshold assignment. *)
Example flat3_reachable :
  (fm <- init [[0; 0; 0]; [0; 0; 0]; [0; 0; 0]] ;; setWater fm 1 1 100)
  = Ok flat3.
Proof. reflexivity. Qed.

Example pool3_reachable : set_minFloodHeight flat3 1 = pool3.
Proof. reflexivity. Qed.

Example slope3_reachable :
  (fm <- init [[3; 0; 0]; [0; 0; 0]; [0; 0; 0]] ;;
   fm <- setWater fm 1 1 100 ;;
   Ok (set_minFloodHeight fm 1))
  = Ok slope3.
Proof. reflexivity. Qed.

Example column2_reachable :
  (fm <- init [[0]; [0]] ;; setWater fm 0 1 100) = Ok column2.
Proof. reflexivity. Qed.

Example dry2_reachable : init [[0; 0]; [0; 0]] = Ok dry2.
Proof. reflexivity. Qed.

Example single_reachable :
  (fm <- init [[0]] ;; setWater fm 0 0 100) = Ok single.
Proof. reflexivity. Qed.

(** * The claims *)

(** C1 (defect in the code): processing the wet centre cell of [slope3]
    stores for the neighbour [(0, 0)], which lies three units higher,
    the share [w0 * weight(0) / weightSum]; the height difference enters
    [weightSum] only, so the stored share is not
    [w0 * weight(height(neighbour) - height(x,y)) / weightSum]. *)
Theorem C1_neighbour_share_ignores_slope :
  getWater slope3 1 1 = Ok 100%R /\
  getHeight slope3 1 1 = Ok 0 /\
  getHeight slope3 0 0 = Ok 3 /\
  exists ws deltas',
    weightSumAt slope3 1 1 0 = Ok ws /\
    tickCell slope3 1 1 (new_deltas 3 3) = Ok deltas' /\
    deltas_get deltas' 0 0 = Ok (100 * weight 0 / ws)%R /\
    (100 * weight 0 / ws <> 100 * weight (IZR (3 - 0)) / ws)%R.
Proof.
  split; [reflexivity |]. split; [reflexivity |]. split; [reflexivity |].
  eexists. eexists.
  split; [ev; reflexivity |].
  split; [run_cells; reflexivity |].
  split; [ev; reflexivity |].
  simpl (3 - 0).
  pose proof (weight_pos 3). pose proof (weight_pos 0).
  pose proof (weight_increasing 0 3 ltac:(lra)).
  set (ws := (0 + weight 3 + weight 0 + weight 0 + weight 0 + weight 0 +
              weight 0 + weight 0 + weight 0 + weight 0)%R).
  assert (Hws : (0 < / ws)%R) by (apply Rinv_0_lt_compat; unfold ws; lra).
  unfold Rdiv. nra.
Qed.

(** C2 (defect in the code): the rows of the delta grid are one shared
    row object, so storing the delta of cell [(0, 0)] also changes the
    delta read for cell [(0, 1)], and a second store to the same cell
    replaces the first instead of being added to it.  Within a tick:
    after the centre cell of [pool3] has been processed, the delta stored
    for the centre itself is the share written last for its neighbour
    [(1, 2)], not the centre's own net delta. *)
Theorem C2_delta_rows_share_storage :
  deltas_get (new_deltas 2 2) 1 0 = Ok 0%R /\
  (exists d1 d2,
     deltas_set (new_deltas 2 2) 0 0 5 = Ok d1 /\
     deltas_get d1 1 0 = Ok 5%R /\
     deltas_set d1 0 0 7 = Ok d2 /\
     deltas_get d2 0 0 = Ok 7%R) /\
  (exists ws deltas',
     weightSumAt pool3 1 1 0 = Ok ws /\
     tickCell pool3 1 1 (new_deltas 3 3) = Ok deltas' /\
     deltas_get deltas' 1 1 = Ok (neighbourDelta 100 ws) /\
     neighbourDelta 100 ws <> centreDelta 100 ws).
Proof.
  split; [reflexivity |].
  split; [eexists; eexists; repeat split; reflexivity |].
  eexists. eexists.
  split; [ev; reflexivity |].
  split; [run_cells; reflexivity |].
  split; [ev; reflexivity |].
  unfold neighbourDelta, centreDelta. lra.
Qed.

(** C3 (defect in the code): on [pool3] only the centre cell is processed
    and its 3x3 block lies inside the grid, yet one tick doubles the
    total amount of water. *)
Theorem C3_tick_creates_water :
  totalWater pool3 = 100%R /\
  exists floodMap',
    tick pool3 = Ok floodMap' /\ totalWater floodMap' = 200%R.
Proof.
  split; [unfold totalWater; simpl; lra |].
  eexists. split; [run_tick; reflexivity |].
  unfold totalWater. simpl. rewrite weight_0. lra.
Qed.

(** C4 (defect in the code): on the flat 3x3 scenario one tick leaves the
    grid exactly as it was: the centre keeps 100 and the other cells stay
    empty, so no cell holds [100/9]. *)
Theorem C4_flat_scenario_unchanged :
  tick flat3 = Ok flat3 /\
  getWater flat3 1 1 = Ok 100%R /\ (100 <> 100 / 9)%R /\
  getWater flat3 0 0 = Ok 0%R /\ (0 <> 100 / 9)%R.
Proof.
  split.
  - run_tick. unfold flat3. repeat f_equal; Rzero.
  - repeat split; try reflexivity; lra.
Qed.








(** C8 (defect in the code): the bounds guard of [setWater] falls through
    to the assignment.  With [x = -1] the write lands on the last cell of
    the row, and with [x = 2] it raises [IndexError]: an out-of-bounds
    write is neither uniformly discarded nor uniformly refused, and it can
    modify a cell of the grid. *)
Theorem C8_setWater_guard_falls_through :
  outside dry2 (-1) 0 = true /\
  getWater dry2 1 0 = Ok 0%R /\
  (exists floodMap',
     setWater dry2 (-1) 0 7 = Ok floodMap' /\
     getWater floodMap' 1 0 = Ok 7%R) /\
  outside dry2 2 0 = true /\
  setWater dry2 2 0 7 = Raise IndexError.
Proof.
  split; [reflexivity |]. split; [reflexivity |].
  split; [eexists; split; reflexivity |].
  split; reflexivity.
Qed.

(** C9 (defect in the code): every cell of [column2] holds a non-negative
    amount of water, and after one tick the cell [(0, 0)] holds a negative
    amount. *)
Theorem C9_tick_makes_water_negative :
  Forall (Forall (fun c => (0 <= water c)%R)) (data column2) /\
  exists floodMap' w,
    tick column2 = Ok floodMap' /\
    getWater floodMap' 0 0 = Ok w /\ (w < 0)%R.
Proof.
  split.
  { unfold column2. simpl. repeat constructor; simpl; lra. }
  eexists. eexists.
  split; [run_tick; reflexivity |].
  split; [ev; reflexivity |].
  pose proof (weight_pos 10000000) as Hbig. rewrite weight_0.
  set (ws := (0 + weight 10000000 + weight 10000000 + weight 10000000 +
              1 / 2 + 1 / 2 + weight 10000000 + weight 10000000 +
              weight 10000000 + weight 10000000)%R).
  assert (Hws : (1 < ws)%R) by (unfold ws; lra).
  assert (Hinv : (0 < / ws < 1)%R).
  { split; [apply Rinv_0_lt_compat; lra |].
    rewrite <- Rinv_1. apply Rinv_lt_contravar; lra. }
  unfold Rdiv. nra.
Qed.

(** C10: on the tile (the clamps of [latLongToPointApprox] do not fire for
    [40 < lat <= 41], [-74 < long <= -73]) mapping a point to its index
    and back moves each coordinate by less than [1/1201] degree. *)
Theorem C10_round_trip_within_one_step self lat long :
  (40 < lat <= 41)%R -> (-74 < long <= -73)%R ->
  let '(x, y) := latLongToPointApprox self lat long in
  let '(lat', long') := pointToLatLong self x y in
  (Rabs (lat' - lat) < 1 / 1201)%R /\ (Rabs (long' - long) < 1 / 1201)%R.
Proof.
  intros Hlat Hlong.
  rewrite latLongToPointApprox_inside by assumption.
  unfold pointToLatLong. cbv zeta.
  destruct (py_int_nonneg (-1201 * (lat - 41))%R) as [Hy1 Hy2]; [lra|].
  destruct (py_int_nonneg (-1201 * (long + 73))%R) as [Hx1 Hx2]; [lra|].
  split; apply Rabs_def1; lra.
Qed.

Lemma C10_round_trip_witness :
  let self := HgtMap [[Cell 0 0]] 0 0 0 in
  let '(x, y) := latLongToPointApprox self 40.366 (-73.88) in
  let '(lat', long') := pointToLatLong self x y in
  (Rabs (lat' - 40.366) < 1 / 1201)%R /\ (Rabs (long' - -73.88) < 1 / 1201)%R.
Proof.
  apply (C10_round_trip_within_one_step (HgtMap [[Cell 0 0]] 0 0 0) 40.366 (-73.88));
    lra.
Defined.

(** * Further properties of the grid *)

Lemma nth_error_nth_Some {A} (l : list A) n d :
  (n < length l)%nat -> nth_error l n = Some (nth n l d).
Proof. intros H. apply nth_error_nth'. assumption. Qed.

Lemma py_get_inside {A} (l : list A) i d :
  0 <= i < Z.of_nat (length l) -> py_get l i = Ok (nth (Z.to_nat i) l d).
Proof.
  intros H. unfold py_get. rewrite py_index_inrange by assumption. simpl.
  rewrite (nth_error_nth_Some l _ d) by lia. reflexivity.
Qed.

Lemma nth_list_set_other {A} (l : list A) n m v d :
  n <> m -> nth m (list_set l n v) d = nth m l d.
Proof.
  revert n m. induction l as [| a l IH]; intros [| n] [| m] H; simpl;
    try reflexivity; try congruence.
  apply IH. congruence.
Qed.

Lemma row_length self y :
  rectangular self -> 0 <= y <= maxY self ->
  length (nth (Z.to_nat y) (data self) []) = Z.to_nat (maxX self + 1).
Proof.
  intros (HX & HY & Hrows & Hcols) Hy.
  rewrite Forall_forall in Hcols. apply Hcols. apply nth_In. lia.
Qed.

Lemma getWater_inside self x y :
  rectangular self -> outside self x y = false ->
  getWater self x y = Ok (water (cellAt self x y)).
Proof.
  intros Hrect Hin. unfold getWater, cellAt. rewrite Hin.
  apply outside_false in Hin.
  pose proof (row_length self y Hrect ltac:(lia)) as Hlen.
  destruct Hrect as (HX & HY & Hrows & _).
  rewrite (py_get_inside (data self) y []) by lia. simpl.
  rewrite (py_get_inside _ x (Cell 0 0%R)) by lia. reflexivity.
Qed.

Lemma getHeight_inside self x y :
  rectangular self -> outside self x y = false ->
  getHeight self x y = Ok (height (cellAt self x y)).
Proof.
  intros Hrect Hin. unfold getHeight, cellAt. rewrite Hin.
  apply outside_false in Hin.
  pose proof (row_length self y Hrect ltac:(lia)) as Hlen.
  destruct Hrect as (HX & HY & Hrows & _).
  rewrite (py_get_inside (data self) y []) by lia. simpl.
  rewrite (py_get_inside _ x (Cell 0 0%R)) by lia. reflexivity.
Qed.

Lemma setWater_inside self x y w :
  rectangular self -> outside self x y = false ->
  setWater self x y w =
    Ok (HgtMap
          (list_set (data self) (Z.to_nat y)
             (list_set (nth (Z.to_nat y) (data self) []) (Z.to_nat x)
                (Cell (height (cellAt self x y)) w)))
          (maxX self) (maxY self) (minFloodHeight self)).
Proof.
  intros Hrect Hin. unfold setWater, cellAt. rewrite Hin.
  apply outside_false in Hin.
  pose proof (row_length self y Hrect ltac:(lia)) as Hlen.
  destruct Hrect as (HX & HY & Hrows & _).
  rewrite (py_get_inside (data self) y []) by lia. simpl.
  rewrite (py_get_inside _ x (Cell 0 0%R)) by lia. simpl.
  rewrite py_set_inrange by lia. simpl.
  rewrite py_set_inrange by lia. reflexivity.
Qed.

Lemma cellAt_setWater_same self self' x y w :
  rectangular self -> outside self x y = false ->
  setWater self x y w = Ok self' ->
  cellAt self' x y = Cell (height (cellAt self x y)) w.
Proof.
  intros Hrect Hin H. rewrite setWater_inside in H by assumption.
  injection H as <-. apply outside_false in Hin.
  pose proof (row_length self y Hrect ltac:(lia)) as Hlen.
  destruct Hrect as (HX & HY & Hrows & _).
  unfold cellAt at 1. simpl.
  rewrite nth_list_set by lia. rewrite nth_list_set by lia. reflexivity.
Qed.

Lemma cellAt_setWater_other self self' x y w x' y' :
  rectangular self -> outside self x y = false ->
  setWater self x y w = Ok self' ->
  0 <= x' -> 0 <= y' -> (x', y') <> (x, y) ->
  cellAt self' x' y' = cellAt self x' y'.
Proof.
  intros Hrect Hin H Hx' Hy' Hne. rewrite setWater_inside in H by assumption.
  injection H as <-. apply outside_false in Hin.
  pose proof (row_length self y Hrect ltac:(lia)) as Hlen.
  destruct Hrect as (HX & HY & Hrows & _).
  unfold cellAt. simpl.
  destruct (Z.eq_dec y' y) as [-> | Hy].
  - rewrite nth_list_set by lia.
    rewrite nth_list_set_other; [reflexivity |].
    intros E. apply Hne. f_equal. lia.
  - rewrite nth_list_set_other; [reflexivity | lia].
Qed.

(** X: a value stored by [setWater] at an in-bounds cell is what
    [getWater] reads back there. *)
Theorem setWater_getWater_round_trip self x y w :
  rectangular self -> outside self x y = false ->
  exists self',
    setWater self x y w = Ok self' /\ getWater self' x y = Ok w.
Proof.
  intros Hrect Hin.
  destruct (setWater_total self x y w Hrect Hin)
    as (self' & Hset & Hrect' & HX & HY).
  exists self'. split; [assumption |].
  assert (Hin' : outside self' x y = false).
  { apply outside_false. apply outside_false in Hin. lia. }
  rewrite getWater_inside by assumption.
  rewrite (cellAt_setWater_same self self' x y w) by assumption.
  reflexivity.
Qed.

Lemma rectangular_dry2 : rectangular dry2.
Proof.
  unfold rectangular, dry2. simpl. repeat split; try lia. repeat constructor.
Qed.

Lemma setWater_getWater_round_trip_witness :
  exists self', setWater dry2 1 0 7 = Ok self' /\ getWater self' 1 0 = Ok 7%R.
Proof.
  apply (setWater_getWater_round_trip dry2 1 0 7 rectangular_dry2).
  reflexivity.
Defined.

(** X: an in-bounds [setWater] changes nothing else: the grid keeps its
    shape, bounds and threshold, every height, and the water of every
    other cell. *)
Theorem setWater_frame self self' x y w :
  rectangular self -> outside self x y = false ->
  setWater self x y w = Ok self' ->
  rectangular self' /\
  maxX self' = maxX self /\ maxY self' = maxY self /\
  minFloodHeight self' = minFloodHeight self /\
  (forall x' y', getHeight self' x' y' = getHeight self x' y') /\
  (forall x' y', (x', y') <> (x, y) ->
                 getWater self' x' y' = getWater self x' y').
Proof.
  intros Hrect Hin Hset.
  destruct (setWater_total self x y w Hrect Hin)
    as (s & Hs & Hrect' & HX & HY).
  rewrite Hset in Hs. injection Hs as <-.
  assert (Hout : forall x' y', outside self' x' y' = outside self x' y').
  { intros x' y'. unfold outside. rewrite HX, HY. reflexivity. }
  split; [assumption |]. split; [assumption |]. split; [assumption |].
  split.
  { pose proof Hset as Hset'. rewrite setWater_inside in Hset' by assumption.
    injection Hset' as <-. reflexivity. }
  split.
  - intros x' y'.
    destruct (outside self x' y') eqn:E.
    + rewrite !getHeight_outside by (rewrite ?Hout; assumption). reflexivity.
    + rewrite !getHeight_inside by (rewrite ?Hout; assumption).
      apply outside_false in E.
      destruct (Z.eq_dec x' x) as [-> | Hx];
        [destruct (Z.eq_dec y' y) as [-> | Hy] |].
      * rewrite (cellAt_setWater_same self self' x y w) by assumption.
        reflexivity.
      * rewrite (cellAt_setWater_other self self' x y w) by
          (try assumption; try lia; congruence). reflexivity.
      * rewrite (cellAt_setWater_other self self' x y w) by
          (try assumption; try lia; congruence). reflexivity.
  - intros x' y' Hne.
    destruct (outside self x' y') eqn:E.
    + rewrite !getWater_outside by (rewrite ?Hout; assumption). reflexivity.
    + rewrite !getWater_inside by (rewrite ?Hout; assumption).
      apply outside_false in E.
      rewrite (cellAt_setWater_other self self' x y w) by
        (try assumption; lia). reflexivity.
Qed.

Lemma setWater_frame_witness :
  exists self',
    setWater dry2 1 0 7 = Ok self' /\
    getWater self' 0 0 = getWater dry2 0 0 /\
    getHeight self' 1 0 = getHeight dry2 1 0.
Proof.
  eexists. split; [reflexivity |].
  destruct (setWater_frame dry2 _ 1 0 7 rectangular_dry2 eq_refl eq_refl)
    as (_ & _ & _ & _ & Hh & Hw).
  split; [apply Hw; discriminate | apply Hh].
Defined.

Lemma setWater_minFloodHeight self self' x y w :
  setWater self x y w = Ok self' ->
  minFloodHeight self' = minFloodHeight self.
Proof.
  unfold setWater. intros H.
  assert (H' : (row <- py_get (data self) y ;;
                c <- py_get row x ;;
                row' <- py_set row x (Cell (height c) w) ;;
                data' <- py_set (data self) y row' ;;
                Ok (HgtMap data' (maxX self) (maxY self)
                      (minFloodHeight self))) = Ok self')
    by (destruct (outside self x y); exact H).
  apply bind_Ok in H' as (row & _ & H').
  apply bind_Ok in H' as (c & _ & H').
  apply bind_Ok in H' as (row' & _ & H').
  apply bind_Ok in H' as (data' & _ & [= <-]).
  reflexivity.
Qed.

(** X: on a rectangular grid [getWater] returns a value exactly for the
    coordinates inside the grid; everywhere else it raises. *)
Theorem getWater_defined_iff_inside self x y :
  rectangular self ->
  (exists w, getWater self x y = Ok w) <-> outside self x y = false.
Proof.
  intros Hrect. split.
  - intros [w H]. destruct (outside self x y) eqn:E; [| reflexivity].
    rewrite getWater_outside in H by assumption. discriminate.
  - apply getWater_total. assumption.
Qed.

Lemma getWater_defined_iff_inside_witness :
  (exists w, getWater dry2 1 1 = Ok w) <-> outside dry2 1 1 = false.
Proof.
  apply (getWater_defined_iff_inside dry2 1 1 rectangular_dry2).
Defined.

Lemma py_index_wrap len i :
  - Z.of_nat len <= i < 0 ->
  py_index len i = py_index len (i + Z.of_nat len).
Proof.
  intros H. rewrite (py_index_inrange len (i + Z.of_nat len)) by lia.
  unfold py_index.
  destruct (Z.leb_spec 0 i); [lia |]. simpl.
  destruct (Z.leb_spec (- Z.of_nat len) i); [| lia].
  destruct (Z.ltb_spec i 0); [| lia]. simpl.
  f_equal. lia.
Qed.

Lemma py_index_below len i :
  i < - Z.of_nat len -> py_index len i = Raise IndexError.
Proof.
  intros H. unfold py_index.
  destruct (Z.leb_spec 0 i); [lia |]. simpl.
  destruct (Z.leb_spec (- Z.of_nat len) i); [lia |]. reflexivity.
Qed.

Lemma py_get_wrap {A} (l : list A) i :
  - Z.of_nat (length l) <= i < 0 ->
  py_get l i = py_get l (i + Z.of_nat (length l)).
Proof. intros H. unfold py_get. rewrite py_index_wrap by assumption. reflexivity. Qed.

Lemma py_set_wrap {A} (l : list A) i v :
  - Z.of_nat (length l) <= i < 0 ->
  py_set l i v = py_set l (i + Z.of_nat (length l)) v.
Proof. intros H. unfold py_set. rewrite py_index_wrap by assumption. reflexivity. Qed.

Lemma py_get_outside {A} (l : list A) i :
  i < - Z.of_nat (length l) \/ Z.of_nat (length l) <= i ->
  py_get l i = Raise IndexError.
Proof.
  intros [H | H]; unfold py_get;
    [rewrite py_index_below | rewrite py_index_above]; auto.
Qed.

(** X: a write at a negative column index is not discarded: it passes the
    bounds guard and lands on the cell counted from the end of the row. *)
Theorem setWater_negative_index_wraps self x y w :
  rectangular self ->
  - (maxX self + 1) <= x < 0 -> 0 <= y <= maxY self ->
  outside self x y = true /\
  exists self',
    setWater self x y w = Ok self' /\
    setWater self (x + maxX self + 1) y w = Ok self' /\
    getWater self' (x + maxX self + 1) y = Ok w.
Proof.
  intros Hrect Hx Hy.
  split; [apply outside_true; lia |].
  assert (Hin : outside self (x + maxX self + 1) y = false)
    by (apply outside_false; lia).
  destruct (setWater_total self _ y w Hrect Hin)
    as (self' & Hset & Hrect' & HX' & HY').
  assert (Hget : getWater self' (x + maxX self + 1) y = Ok w).
  { rewrite getWater_inside
      by (try assumption; apply outside_false; apply outside_false in Hin;
          lia).
    rewrite (cellAt_setWater_same self self' _ y w) by assumption.
    reflexivity. }
  exists self'. split; [| split; assumption].
  rewrite <- Hset. unfold setWater.
  pose proof (row_length self y Hrect Hy) as Hlen.
  destruct Hrect as (HX & HY & Hrows & _).
  rewrite (py_get_inside (data self) y []) by lia.
  set (row := nth (Z.to_nat y) (data self) []) in *.
  assert (Hw : x + Z.of_nat (length row) = x + maxX self + 1) by lia.
  assert (E : forall k : cell -> result hgtMap,
             (c <- py_get row x ;; k c) =
             (c <- py_get row (x + maxX self + 1) ;; k c)).
  { intros k. rewrite py_get_wrap by lia. rewrite Hw. reflexivity. }
  assert (E' : forall v, py_set row x v = py_set row (x + maxX self + 1) v).
  { intros v. rewrite py_set_wrap by lia. rewrite Hw. reflexivity. }
  destruct (outside self x y), (outside self (x + maxX self + 1) y);
    cbn [bind]; rewrite E;
    destruct (py_get row (x + maxX self + 1)); cbn [bind];
    rewrite ?E'; reflexivity.
Qed.

Lemma setWater_negative_index_wraps_witness :
  outside dry2 (-1) 0 = true /\
  exists self',
    setWater dry2 (-1) 0 7 = Ok self' /\
    setWater dry2 (-1 + maxX dry2 + 1) 0 7 = Ok self' /\
    getWater self' (-1 + maxX dry2 + 1) 0 = Ok 7%R.
Proof.
  apply (setWater_negative_index_wraps dry2 (-1) 0 7 rectangular_dry2);
    simpl; lia.
Defined.

(** X: a write whose column or row index lies outside
    [-(len) .. len - 1] raises [IndexError]. *)
Theorem setWater_far_index_raises self x y w :
  rectangular self ->
  x > maxX self \/ y > maxY self \/
  x < - (maxX self + 1) \/ y < - (maxY self + 1) ->
  setWater self x y w = Raise IndexError.
Proof.
  intros Hrect Hfar.
  assert (H : (row <- py_get (data self) y ;;
               c <- py_get row x ;;
               row' <- py_set row x (Cell (height c) w) ;;
               data' <- py_set (data self) y row' ;;
               Ok (HgtMap data' (maxX self) (maxY self)
                     (minFloodHeight self))) = Raise IndexError).
  { destruct (py_get (data self) y) as [row | e] eqn:Hrow; cbn [bind].
    - pose proof (py_get_In _ _ _ Hrow) as Hmem.
      destruct Hrect as (HX & HY & Hrows & Hcols).
      rewrite Forall_forall in Hcols. pose proof (Hcols row Hmem) as Hlen.
      assert (Hxfar : x > maxX self \/ x < - (maxX self + 1)).
      { destruct Hfar as [H | [H | [H | H]]]; auto;
          rewrite py_get_outside in Hrow by lia; discriminate. }
      rewrite py_get_outside by lia. reflexivity.
    - apply py_get_raises in Hrow. subst. reflexivity. }
  unfold setWater. destruct (outside self x y); exact H.
Qed.

Lemma setWater_far_index_raises_witness :
  setWater dry2 2 0 7 = Raise IndexError.
Proof.
  apply (setWater_far_index_raises dry2 2 0 7 rectangular_dry2).
  simpl. lia.
Defined.

(** ** [__init__] *)

(** X: [__init__] raises [IndexError] exactly on the empty array. *)
Theorem init_raises_iff_empty hgtStartData :
  init hgtStartData = Raise IndexError <-> hgtStartData = [].
Proof.
  split.
  - destruct hgtStartData as [| row0 rest]; [reflexivity |].
    unfold init.
    rewrite (py_get_inside (row0 :: rest) 0 []) by (simpl; lia).
    discriminate.
  - intros ->. reflexivity.
Qed.

(** X: on a non-empty array whose rows are as long as its non-empty first
    row, [__init__] builds a rectangular grid with threshold 0 in which
    every cell has the given height and no water. *)
Theorem init_builds_dry_grid row0 rest :
  row0 <> [] -> Forall (fun row => length row = length row0) rest ->
  exists self,
    init (row0 :: rest) = Ok self /\
    rectangular self /\
    minFloodHeight self = 0%R /\
    maxX self = Z.of_nat (length row0) - 1 /\
    maxY self = Z.of_nat (length rest) /\
    forall x y, outside self x y = false ->
      getHeight self x y =
        Ok (nth (Z.to_nat x) (nth (Z.to_nat y) (row0 :: rest) []) 0) /\
      getWater self x y = Ok 0%R.
Proof.
  intros Hne Hrows. unfold init.
  rewrite (py_get_inside (row0 :: rest) 0 []) by (simpl; lia).
  change (nth (Z.to_nat 0) (row0 :: rest) []) with row0. cbn [bind].
  eexists. split; [reflexivity |].
  assert (Hlen0 : (0 < length row0)%nat).
  { destruct row0; [congruence | simpl; lia]. }
  assert (Hrect : rectangular
            (HgtMap (map (fun row => map (fun h => Cell h 0%R) row)
                       (row0 :: rest))
               (Z.of_nat (length row0) - 1)
               (Z.of_nat (length (row0 :: rest)) - 1) 0%R)).
  { unfold rectangular. cbn [maxX maxY data]. simpl length.
    repeat split; try lia.
    - rewrite length_map. lia.
    - apply Forall_forall. intros r Hr.
      apply in_map_iff in Hr as (r0 & <- & Hr0). rewrite length_map.
      assert (length r0 = length row0).
      { destruct Hr0 as [<- | Hr0]; [reflexivity |].
        rewrite Forall_forall in Hrows. auto. }
      lia. }
  split; [exact Hrect |].
  split; [reflexivity |]. split; [reflexivity |].
  split; [cbn [maxY]; simpl length; lia |].
  intros x y Hin.
  rewrite getHeight_inside, getWater_inside by assumption.
  unfold cellAt. cbn [data].
  change (@nil cell) with (map (fun h => Cell h 0%R) []).
  rewrite (map_nth (fun row => map (fun h => Cell h 0%R) row)).
  change (Cell 0 0%R) with ((fun h => Cell h 0%R) 0).
  rewrite map_nth. split; reflexivity.
Qed.

Lemma init_builds_dry_grid_witness :
  exists self, init ([0; 0] :: [[0; 0]]) = Ok self /\ rectangular self.
Proof.
  destruct (init_builds_dry_grid [0; 0] [[0; 0]])
    as (self & Hinit & Hrect & _).
  - discriminate.
  - repeat constructor.
  - exists self. split; assumption.
Defined.

(** ** The coordinate mapper *)

Lemma py_int_nonpos r : (r <= 0)%R -> py_int r <= 0.
Proof.
  intros Hr. unfold py_int.
  destruct (Rle_dec 0 r) as [H0 | H0].
  - assert (r = 0%R) by lra. subst r.
    destruct (base_Int_part 0) as [Hl Hu].
    apply le_IZR. exact Hl.
  - destruct (base_Int_part (- r)) as [Hl Hu].
    assert (0 <= Int_part (- r)); [| lia].
    apply Z.lt_succ_r. apply lt_IZR. rewrite succ_IZR. lra.
Qed.

Lemma py_int_at_least r n : (IZR n <= r)%R -> 0 <= n -> n <= py_int r.
Proof.
  intros Hr Hn.
  assert (H0 : (0 <= r)%R) by (apply IZR_le in Hn; lra).
  destruct (py_int_nonneg r H0) as [_ Hu].
  apply Z.lt_succ_r. apply lt_IZR. rewrite succ_IZR. lra.
Qed.

(** X: [latLongToPointApprox] always returns an index of the
    1201 x 1201 tile, whatever the coordinates. *)
Theorem latLongToPointApprox_in_tile self lat long :
  let '(x, y) := latLongToPointApprox self lat long in
  0 <= x <= 1200 /\ 0 <= y <= 1200.
Proof.
  unfold latLongToPointApprox. cbv zeta.
  generalize (py_int (-1201 * (lat - 41))) (py_int (-1201 * (long + 73))).
  intros y x.
  destruct (Z.gtb_spec y 1200), (Z.gtb_spec x 1200); simpl;
    try destruct (Z.ltb_spec y 0); try destruct (Z.ltb_spec x 0); lia.
Qed.

(** X: the clamp saturates: a point on or north of latitude 41 maps to
    row 0 and a point on or south of latitude 40 to row 1200; a point on
    or east of longitude -73 maps to column 0 and a point on or west of
    longitude -74 to column 1200. *)
Theorem latLongToPointApprox_saturates self lat long :
  let '(x, y) := latLongToPointApprox self lat long in
  ((41 <= lat)%R -> y = 0) /\ ((lat <= 40)%R -> y = 1200) /\
  ((-73 <= long)%R -> x = 0) /\ ((long <= -74)%R -> x = 1200).
Proof.
  unfold latLongToPointApprox. cbv zeta.
  pose proof (py_int_nonpos (-1201 * (lat - 41))) as Hy0.
  pose proof (py_int_at_least (-1201 * (lat - 41)) 1201) as Hy1.
  pose proof (py_int_nonpos (-1201 * (long + 73))) as Hx0.
  pose proof (py_int_at_least (-1201 * (long + 73)) 1201) as Hx1.
  revert Hy0 Hy1 Hx0 Hx1.
  generalize (py_int (-1201 * (lat - 41))) (py_int (-1201 * (long + 73))).
  intros y x Hy0 Hy1 Hx0 Hx1.
  repeat split; intros H.
  - assert (y <= 0) by (apply Hy0; lra).
    destruct (Z.gtb_spec y 1200); [lia |].
    destruct (Z.ltb_spec y 0); lia.
  - assert (1201 <= y) by (apply Hy1; [lra | lia]).
    destruct (Z.gtb_spec y 1200); [reflexivity | lia].
  - assert (x <= 0) by (apply Hx0; lra).
    destruct (Z.gtb_spec x 1200); [lia |].
    destruct (Z.ltb_spec x 0); lia.
  - assert (1201 <= x) by (apply Hx1; [lra | lia]).
    destruct (Z.gtb_spec x 1200); [reflexivity | lia].
Qed.

(** X: [pointToLatLong] maps different indices to different coordinates:
    the assignments that cap [x] and [y] at 1 come after the offsets are
    computed and do not affect the result. *)
Theorem pointToLatLong_injective self x y x' y' :
  pointToLatLong self x y = pointToLatLong self x' y' -> x = x' /\ y = y'.
Proof.
  unfold pointToLatLong. cbv zeta. intros [= Hy Hx].
  split; apply eq_IZR; lra.
Qed.

Lemma pointToLatLong_injective_witness : 5 = 5 /\ 7 = 7.
Proof.
  apply (pointToLatLong_injective single 5 7 5 7). reflexivity.
Defined.

(** ** The weight and the shares *)




(** * Further properties of [tick] *)


Lemma foldM_unchanged {A S} (body : S -> A -> result S) l s :
  (forall a, In a l -> body s a = Ok s) -> foldM body l s = Ok s.
Proof.
  induction l as [| a l IH]; intros H; simpl; [reflexivity |].
  rewrite H by (left; reflexivity). simpl. apply IH.
  intros b Hb. apply H. right. assumption.
Qed.

Lemma foldM_prefix {A S} (Inv : list A -> S -> Prop)
      (body : S -> A -> result S) l :
  (forall pre a suf s, l = pre ++ a :: suf -> Inv pre s ->
     exists s', body s a = Ok s' /\ Inv (pre ++ [a]) s') ->
  forall s, Inv [] s -> exists s', foldM body l s = Ok s' /\ Inv l s'.
Proof.
  intros Hbody.
  assert (H : forall suf pre s, l = pre ++ suf -> Inv pre s ->
            exists s', foldM body suf s = Ok s' /\ Inv l s').
  { induction suf as [| a suf IH]; intros pre s Hl Hs; simpl.
    - rewrite app_nil_r in Hl. subst. eauto.
    - destruct (Hbody pre a suf s Hl Hs) as (s1 & -> & Hs1). simpl.
      apply (IH (pre ++ [a])); [| assumption].
      rewrite <- app_assoc. assumption. }
  intros s Hs. apply (H l [] s); [reflexivity | assumption].
Qed.

Lemma NoDup_map_injective {A B} (f : A -> B) l :
  (forall a b, f a = f b -> a = b) -> NoDup l -> NoDup (map f l).
Proof.
  intros Hinj. induction 1 as [| a l Ha Hl IH]; simpl; constructor.
  - intros H. apply in_map_iff in H as (b & Hb & Hin).
    apply Hinj in Hb. subst. contradiction.
  - assumption.
Qed.

Lemma py_range_NoDup a b : NoDup (py_range a b).
Proof.
  unfold py_range. apply NoDup_map_injective.
  - intros n m H. lia.
  - apply seq_NoDup.
Qed.

Lemma py_range_fresh a b pre k suf :
  py_range a b = pre ++ k :: suf -> ~ In k pre.
Proof.
  intros H. pose proof (py_range_NoDup a b) as Hnd. rewrite H in Hnd.
  apply NoDup_remove_2 in Hnd. intros Hk. apply Hnd.
  apply in_or_app. left. assumption.
Qed.

(** ** The delta grid stays one shared row *)

Lemma aliased_new floodMap :
  aliased floodMap (repeat 0%R (Z.to_nat (maxX floodMap + 1)))
    (new_deltas (maxX floodMap + 1) (maxY floodMap + 1)).
Proof. split; [reflexivity | apply repeat_length]. Qed.

Lemma aliased_shaped floodMap row deltas :
  aliased floodMap row deltas -> shaped floodMap deltas.
Proof.
  intros [-> Hlen]. unfold shaped. simpl. repeat split.
  - apply repeat_length.
  - apply Forall_forall. intros r Hr. apply repeat_spec in Hr. subst. lia.
  - repeat constructor. assumption.
Qed.



Lemma deltas_get_aliased floodMap row deltas x y :
  aliased floodMap row deltas -> outside floodMap x y = false ->
  deltas_get deltas y x = Ok (nth (Z.to_nat x) row 0%R).
Proof.
  intros [-> Hlen] Hin. apply outside_false in Hin. unfold deltas_get. simpl.
  rewrite (py_get_inside _ y 0%nat) by (rewrite repeat_length; lia).
  cbn [bind].
  rewrite nth_repeat. simpl.
  apply py_get_inside. lia.
Qed.

(** ** The second pair of loops *)

Section ApplyDeltas.

Variable floodMap0 : hgtMap.
Variable row : list R.
Variable deltas : deltaGrid.
Hypothesis Hrect0 : rectangular floodMap0.
Hypothesis Halias : aliased floodMap0 row deltas.

Lemma appliedTo_ext (done done' : Z -> Z -> Prop) floodMap :
  (forall x y, outside floodMap0 x y = false -> (done x y <-> done' x y)) ->
  appliedTo floodMap0 row done floodMap ->
  appliedTo floodMap0 row done' floodMap.
Proof.
  intros Hiff (Hrect & HX & HY & Hmin & Hcells).
  split; [assumption |]. split; [assumption |]. split; [assumption |].
  split; [assumption |].
  intros x y Hin. destruct (Hcells x y Hin) as (Hh & Hw).
  split; [assumption |].
  specialize (Hiff x y Hin).
  destruct Hw as [[Hd Hw] | [Hd Hw]]; [left | right]; split;
    try assumption; tauto.
Qed.

Lemma applyDelta_step (done : Z -> Z -> Prop) floodMap x y :
  appliedTo floodMap0 row done floodMap ->
  outside floodMap0 x y = false -> ~ done x y ->
  exists floodMap',
    applyDelta deltas floodMap x y = Ok floodMap' /\
    appliedTo floodMap0 row
      (fun x' y' => done x' y' \/ (x' = x /\ y' = y)) floodMap'.
Proof.
  intros (Hrect & HX & HY & Hmin & Hcells) Hin0 Hnot.
  assert (Hin : outside floodMap x y = false).
  { apply outside_false. apply outside_false in Hin0. lia. }
  unfold applyDelta.
  rewrite getWater_inside by assumption. cbn [bind].
  rewrite (deltas_get_aliased floodMap0 row) by assumption. cbn [bind].
  destruct (setWater_total floodMap x y
              (water (cellAt floodMap x y) + nth (Z.to_nat x) row 0)%R
              Hrect Hin) as (fm' & Hset & Hrect' & HX' & HY').
  exists fm'. split; [assumption |].
  pose proof (setWater_minFloodHeight _ _ _ _ _ Hset) as Hmin'.
  split; [assumption |]. split; [congruence |]. split; [congruence |].
  split; [congruence |].
  intros x' y' Hin'. pose proof Hin' as Hb. apply outside_false in Hb.
  destruct (Hcells x' y' Hin') as (Hh & Hw).
  destruct (Z.eq_dec x' x) as [Ex | Ex];
    [destruct (Z.eq_dec y' y) as [Ey | Ey] |].
  - subst x' y'.
    rewrite (cellAt_setWater_same floodMap fm' x y _ Hrect Hin Hset).
    simpl. split; [assumption |].
    left. split; [right; split; reflexivity |].
    destruct Hw as [[Hd _] | [_ Hw]]; [contradiction | rewrite Hw; reflexivity].
  - rewrite (cellAt_setWater_other floodMap fm' x y _ x' y' Hrect Hin Hset)
      by (try lia; congruence).
    split; [assumption |].
    destruct Hw as [[Hd Hw] | [Hd Hw]]; [left | right]; split;
      try assumption; [left; assumption | intros [Hd' | [_ Hd']]; auto].
  - rewrite (cellAt_setWater_other floodMap fm' x y _ x' y' Hrect Hin Hset)
      by (try lia; congruence).
    split; [assumption |].
    destruct Hw as [[Hd Hw] | [Hd Hw]]; [left | right]; split;
      try assumption; [left; assumption | intros [Hd' | [Hd' _]]; auto].
Qed.

Lemma applyDeltas_column px x floodMap :
  appliedTo floodMap0 row (fun x' _ => In x' px) floodMap ->
  ~ In x px -> 0 <= x <= maxX floodMap0 ->
  exists floodMap',
    foldM (fun floodMap y => applyDelta deltas floodMap x y)
      (py_range 0 (maxY floodMap + 1)) floodMap = Ok floodMap' /\
    appliedTo floodMap0 row (fun x' _ => In x' (px ++ [x])) floodMap'.
Proof.
  intros Happ Hfresh Hx.
  assert (HY : maxY floodMap = maxY floodMap0) by apply Happ.
  rewrite HY.
  destruct (foldM_prefix
              (fun py fm => appliedTo floodMap0 row
                 (fun x' y' => In x' px \/ (x' = x /\ In y' py)) fm)
              (fun fm y => applyDelta deltas fm x y)
              (py_range 0 (maxY floodMap0 + 1))) with (s := floodMap)
    as (fm' & Hfold & Hfm').
  - intros py y suf fm Hsplit Hfm.
    assert (Hy : 0 <= y < maxY floodMap0 + 1).
    { apply (py_range_In 0). rewrite Hsplit. apply in_or_app.
      right. left. reflexivity. }
    destruct (applyDelta_step _ fm x y Hfm) as (fm' & Hstep & Hfm').
    + apply outside_false. lia.
    + intros [Hd | [_ Hd]]; [contradiction |].
      apply (py_range_fresh _ _ _ _ _ Hsplit). assumption.
    + exists fm'. split; [assumption |].
      revert Hfm'. apply appliedTo_ext. intros x' y' _.
      rewrite in_app_iff. simpl. intuition (subst; auto).
  - revert Happ. apply appliedTo_ext. intros x' y' _. simpl. tauto.
  - exists fm'. split; [assumption |].
    revert Hfm'. apply appliedTo_ext. intros x' y' Hin'.
    apply outside_false in Hin'.
    rewrite in_app_iff, py_range_In. simpl. intuition (subst; auto; lia).
Qed.

Lemma applyDeltas_all :
  exists floodMap',
    applyDeltas deltas floodMap0 = Ok floodMap' /\
    appliedTo floodMap0 row (fun _ _ => True) floodMap'.
Proof.
  unfold applyDeltas.
  destruct (foldM_prefix
              (fun px fm => appliedTo floodMap0 row (fun x' _ => In x' px) fm)
              (fun fm x =>
                 foldM (fun fm y => applyDelta deltas fm x y)
                   (py_range 0 (maxY fm + 1)) fm)
              (py_range 0 (maxX floodMap0 + 1))) with (s := floodMap0)
    as (fm' & Hfold & Hfm').
  - intros px x suf fm Hsplit Hfm.
    apply applyDeltas_column; [assumption | |].
    + eapply py_range_fresh. eassumption.
    + assert (0 <= x < maxX floodMap0 + 1); [| lia].
      apply (py_range_In 0). rewrite Hsplit. apply in_or_app.
      right. left. reflexivity.
  - split; [assumption |]. split; [reflexivity |]. split; [reflexivity |].
    split; [reflexivity |].
    intros x y _. split; [reflexivity |].
    right. split; [intros [] | reflexivity].
  - exists fm'. split; [assumption |].
    revert Hfm'. apply appliedTo_ext. intros x y Hin.
    apply outside_false in Hin. rewrite py_range_In. intuition lia.
Qed.

End ApplyDeltas.






Lemma hgtMap_ext floodMap floodMap' :
  rectangular floodMap -> rectangular floodMap' ->
  maxX floodMap' = maxX floodMap -> maxY floodMap' = maxY floodMap ->
  minFloodHeight floodMap' = minFloodHeight floodMap ->
  (forall x y, outside floodMap x y = false ->
               cellAt floodMap' x y = cellAt floodMap x y) ->
  floodMap' = floodMap.
Proof.
  intros Hrect Hrect' HX HY Hmin Hcells.
  destruct floodMap as [d mx my mn], floodMap' as [d' mx' my' mn'].
  simpl in HX, HY, Hmin. subst mx' my' mn'. f_equal.
  pose proof Hrect as (HX0 & HY0 & Hrows & _).
  pose proof Hrect' as (_ & _ & Hrows' & _).
  simpl in HX0, HY0, Hrows, Hrows'.
  apply (nth_ext _ _ [] []); [congruence |].
  intros n Hn.
  assert (Hy : 0 <= Z.of_nat n <= my) by lia.
  pose proof (row_length _ (Z.of_nat n) Hrect Hy) as Hlen.
  pose proof (row_length _ (Z.of_nat n) Hrect' Hy) as Hlen'.
  simpl in Hlen, Hlen'. rewrite Nat2Z.id in Hlen, Hlen'.
  apply (nth_ext _ _ (Cell 0 0%R) (Cell 0 0%R)); [congruence |].
  intros m Hm.
  specialize (Hcells (Z.of_nat m) (Z.of_nat n)).
  unfold cellAt in Hcells. simpl in Hcells. rewrite !Nat2Z.id in Hcells.
  apply Hcells. apply outside_false. simpl. lia.
Qed.

(** X: a tick leaves a rectangular grid in which every cell is below the
    threshold exactly as it was. *)
Theorem tick_dry_grid_unchanged floodMap :
  rectangular floodMap ->
  (forall x y w, getWater floodMap x y = Ok w ->
                 (w < minFloodHeight floodMap)%R) ->
  tick floodMap = Ok floodMap.
Proof.
  intros Hrect Hdry. unfold tick.
  assert (Hcompute :
            computeDeltas floodMap
              (new_deltas (maxX floodMap + 1) (maxY floodMap + 1)) =
            Ok (new_deltas (maxX floodMap + 1) (maxY floodMap + 1))).
  { unfold computeDeltas. apply foldM_unchanged. intros x Hx.
    apply foldM_unchanged. intros y Hy. apply py_range_In in Hx, Hy.
    assert (Hin : outside floodMap x y = false) by (apply outside_false; lia).
    unfold tickCell.
    pose proof (getWater_inside floodMap x y Hrect Hin) as Hw.
    rewrite Hw. cbn [bind].
    rewrite Rltb_true by (apply (Hdry x y); assumption). reflexivity. }
  rewrite Hcompute. cbn [bind].
  destruct (applyDeltas_all floodMap _ _ Hrect (aliased_new floodMap))
    as (fm' & Happly & Hrect' & HX & HY & Hmin & Hcells).
  rewrite Happly. f_equal.
  apply hgtMap_ext; try assumption.
  intros x y Hin. destruct (Hcells x y Hin) as (Hh & [[_ Hw] | [Hd _]]);
    [| exfalso; apply Hd; exact I].
  rewrite nth_repeat in Hw.
  destruct (cellAt fm' x y) as [h w], (cellAt floodMap x y) as [h0 w0].
  simpl in Hh, Hw. subst. f_equal. lra.
Qed.

Lemma rectangular_flat3 : rectangular flat3.
Proof.
  unfold rectangular, flat3. simpl. repeat split; try lia.
  repeat constructor.
Qed.

Lemma tick_dry_grid_unchanged_witness :
  tick (set_minFloodHeight flat3 1000) = Ok (set_minFloodHeight flat3 1000).
Proof.
  apply (tick_dry_grid_unchanged (set_minFloodHeight flat3 1000)).
  - exact rectangular_flat3.
  - intros x y w H.
    assert (Hcell : (w = 0 \/ w = 100)%R).
    { unfold getWater in H.
      destruct (outside (set_minFloodHeight flat3 1000) x y) eqn:E;
        [discriminate |].
      apply outside_false in E. simpl in E.
      assert (Hx : x = 0 \/ x = 1 \/ x = 2) by lia.
      assert (Hy : y = 0 \/ y = 1 \/ y = 2) by lia.
      destruct Hx as [-> | [-> | ->]], Hy as [-> | [-> | ->]];
        injection H as <-; auto. }
    simpl. destruct Hcell as [-> | ->]; lra.
Defined.



Lemma new_deltas_rows_alias_witness :
  exists deltas',
    deltas_set (new_deltas 2 2) 0 0 5 = Ok deltas' /\
    deltas_get deltas' 1 0 = Ok 5%R.
Proof.
  eexists. split; [reflexivity |].
  apply (new_deltas_rows_alias 2 2 0 1 0 5); [reflexivity | lia].
Defined.

(** * [latLongDist] and the size check of [main] *)

Section Distance.
Local Open Scope R_scope.

Lemma py_sqrt_nonneg r : 0 <= r -> py_sqrt r = Some (sqrt r).
Proof.
  intros H. unfold py_sqrt. destruct (Rle_dec 0 r); [reflexivity | contradiction].
Qed.



Lemma half_angle_flip u v : sin ((u - v) / 2) ^ 2 = sin ((v - u) / 2) ^ 2.
Proof.
  replace ((u - v) / 2) with (- ((v - u) / 2)) by lra.
  rewrite sin_neg. ring.
Qed.



End Distance.

(** X: the distance from a point to itself is 0. *)
Theorem latLongDist_same_point lat long :
  latLongDist lat long lat long = Some 0%R.
Proof.
  unfold latLongDist. cbv zeta.
  replace (radians lat - radians lat)%R with 0%R by lra.
  replace (radians long - radians long)%R with 0%R by lra.
  replace (0 / 2)%R with 0%R by lra. rewrite sin_0.
  replace (0 ^ 2 + cos (radians lat) * cos (radians lat) * 0 ^ 2)%R
    with 0%R by ring.
  rewrite py_sqrt_nonneg by lra. rewrite sqrt_0.
  replace (1 - 0)%R with 1%R by lra.
  rewrite py_sqrt_nonneg by lra. rewrite sqrt_1.
  unfold atan2. destruct (Rlt_dec 0 1) as [_ | H]; [| lra].
  replace (0 / 1)%R with 0%R by lra. rewrite atan_0.
  f_equal. lra.
Qed.

(** X: the distance is symmetric in its two points, the domain error
    included. *)
Theorem latLongDist_symmetric lat1 long1 lat2 long2 :
  latLongDist lat1 long1 lat2 long2 = latLongDist lat2 long2 lat1 long1.
Proof.
  unfold latLongDist. cbv zeta.
  rewrite (half_angle_flip (radians lat2) (radians lat1)).
  rewrite (half_angle_flip (radians long2) (radians long1)).
  rewrite (Rmult_comm (cos (radians lat1)) (cos (radians lat2))).
  reflexivity.
Qed.



Lemma py_int_IZR k : 0 <= k -> py_int (IZR k) = k.
Proof.
  intros Hk.
  destruct (py_int_nonneg (IZR k)) as [Hl Hu]; [apply IZR_le in Hk; lra |].
  apply le_IZR in Hl.
  assert (k < py_int (IZR k) + 1); [| lia].
  apply lt_IZR. rewrite plus_IZR. lra.
Qed.

(** X: the size check of [main] accepts a byte count exactly when it is
    twice a perfect square, and then yields the side length. *)
Theorem checkedDim_accepts_twice_a_square siz k :
  checkedDim siz = Some k <-> 0 <= k /\ siz = 2 * k * k.
Proof.
  unfold checkedDim. split.
  - unfold py_sqrt. destruct (Rle_dec 0 (IZR siz / 2)) as [H0 | H0];
      [| discriminate].
    cbv zeta.
    destruct (Z.eqb_spec (py_int (sqrt (IZR siz / 2)) *
                          py_int (sqrt (IZR siz / 2)) * 2) siz) as [E | E];
      [| discriminate].
    intros [= <-]. split; [| lia].
    destruct (py_int_nonneg (sqrt (IZR siz / 2))) as [_ Hu];
      [apply sqrt_pos |].
    pose proof (sqrt_pos (IZR siz / 2)).
    apply Z.lt_succ_r. apply lt_IZR. rewrite succ_IZR. lra.
  - intros [Hk ->].
    assert (Hsq : (IZR (2 * k * k) / 2 = IZR k * IZR k)%R).
    { rewrite !mult_IZR. lra. }
    rewrite Hsq.
    assert (Hpos : (0 <= IZR k)%R) by (apply IZR_le in Hk; lra).
    rewrite py_sqrt_nonneg by nra.
    rewrite sqrt_square by assumption.
    cbv zeta. rewrite py_int_IZR by assumption.
    replace (k * k * 2 =? 2 * k * k) with true
      by (symmetry; apply Z.eqb_eq; lia).
    reflexivity.
Qed.

(** ** The total amount of water after a tick *)

Section Totals.
Local Open Scope R_scope.






End Totals.


